(** * Agent payment platform: the FastAPI services, embedded and checked

    Each service of the repository is one Python module under [src/cmd/]:
    a handful of pydantic models, a module-level dict used as the store,
    and FastAPI handlers that either return a model or raise
    [HTTPException].  Every service is embedded here as a Rocq module of
    the same name:

    - pydantic models are records with the fields of the source;
    - Python [float] is the kernel's binary64 ([PrimFloat.float]), so that
      comparisons behave as in Python (also on NaN and the infinities);
    - a module-level dict is a [gmap string _] threaded through the
      handlers that read or write it;
    - a handler returns [Returned v] or [Raised e], with the status code
      and detail of the [HTTPException] it raises. *)

From Stdlib Require Import ZArith Ascii String List Floats.
From stdpp Require Import base option gmap strings.

Local Open Scope string_scope.

(** Decimal literals such as [0.1] denote the nearest binary64 value, as
    they do in Python. *)
Set Warnings "-inexact-float".

(** ** What the services share *)

(** [HTTPException(status_code=..., detail=...)]. *)
Record HTTPException : Type := mkHTTPException {
  status_code : Z;
  detail : string
}.

(** The outcome of a handler. *)
Inductive response (A : Type) : Type :=
| Returned (a : A)
| Raised (e : HTTPException).
Arguments Returned {A} a.
Arguments Raised {A} e.

Definition is_raised {A} (r : response A) : bool :=
  match r with
  | Returned _ => false
  | Raised _ => true
  end.

(** A JSON value, for the fields typed [Optional[dict]]. *)
#[warnings="-register-all"]
Inductive json : Type :=
| JNull
| JBool (b : bool)
| JInt (z : Z)
| JFloat (f : float)
| JStr (s : string)
| JList (l : list json)
| JDict (l : list (string * json)).

Abbreviation pydict := (list (string * json)).

(** ** src/cmd/ledger/main.py *)

Module Ledger.

Record LedgerLine : Type := mkLedgerLine {
  account : string;
  debit : option float;
  credit : option float
}.

Record LedgerEntry : Type := mkLedgerEntry {
  entry_id : string;
  txn_id : string;
  timestamp : string;
  currency : string;
  lines : list LedgerLine;
  metadata : option pydict;
  hash : option string;
  prev_hash : option string
}.

(** [ledger_db = {}]: the store is empty when the service starts. *)
Definition ledger_db_init : gmap string LedgerEntry := ∅.

(** [POST /ledger].  The membership test [entry.entry_id in ledger_db] is
    the only check; a fresh entry is stored under its [entry_id] as the
    caller sent it and returned. *)
Definition post_ledger_entry (entry : LedgerEntry)
    (ledger_db : gmap string LedgerEntry)
  : response LedgerEntry * gmap string LedgerEntry :=
  match ledger_db !! entry_id entry with
  | Some _ =>
      (Raised (mkHTTPException 409 "Entry already exists"), ledger_db)
  | None =>
      (Returned entry, <[entry_id entry := entry]> ledger_db)
  end.

(** [GET /ledger/{entry_id}].  [ledger_db.get] yields [None] for a missing
    key; a stored pydantic model is always truthy, so [not entry] holds
    exactly when the key is missing. *)
Definition get_ledger_entry (entry_id : string)
    (ledger_db : gmap string LedgerEntry) : response LedgerEntry :=
  match ledger_db !! entry_id with
  | None => Raised (mkHTTPException 404 "Entry not found")
  | Some entry => Returned entry
  end.

(** The ledger's checks as the specification words them, to compare with
    what [post_ledger_entry] accepts: the debits of an entry sum to its
    credits, and every amount that is set is strictly positive. *)
Definition spec_sum_debits (ls : list LedgerLine) : float :=
  fold_left (fun acc l => (acc + default 0 (debit l))%float) ls 0%float.

Definition spec_sum_credits (ls : list LedgerLine) : float :=
  fold_left (fun acc l => (acc + default 0 (credit l))%float) ls 0%float.

Definition spec_balanced (entry : LedgerEntry) : bool :=
  (spec_sum_debits (lines entry) =? spec_sum_credits (lines entry))%float.

Definition spec_amount_positive (v : option float) : bool :=
  match v with
  | None => true
  | Some x => (0 <? x)%float
  end.

Definition spec_lines_positive (entry : LedgerEntry) : bool :=
  forallb (fun l => spec_amount_positive (debit l)
                    && spec_amount_positive (credit l)) (lines entry).

(** The chain invariant of the specification for an entry [stored] that
    was accepted when [head] was the last accepted entry, for a content
    hash [contentHash] over the fields the specification lists. *)
Definition spec_chained
    (contentHash : string -> string -> string -> string ->
                   list LedgerLine -> option pydict -> option string -> string)
    (head stored : LedgerEntry) : Prop :=
  prev_hash stored = hash head
  /\ hash stored =
     Some (contentHash (entry_id stored) (txn_id stored) (timestamp stored)
             (currency stored) (lines stored) (metadata stored)
             (prev_hash stored)).

(** Entries the statements below are evaluated on. *)

(** Debits 100, credits 50. *)
Definition entry_unbalanced : LedgerEntry :=
  mkLedgerEntry "e-unbalanced" "txn-1" "2024-05-01T10:00:00Z" "USD"
    [mkLedgerLine "cash" (Some 100%float) None;
     mkLedgerLine "revenue" None (Some 50%float)]
    None None None.

(** Balanced, with a negative debit and a negative credit. *)
Definition entry_negative : LedgerEntry :=
  mkLedgerEntry "e-negative" "txn-2" "2024-05-01T10:05:00Z" "USD"
    [mkLedgerLine "cash" (Some (-5)%float) None;
     mkLedgerLine "revenue" None (Some (-5)%float)]
    None None None.

(** A balanced entry sent with a hash of the caller's. *)
Definition entry_first : LedgerEntry :=
  mkLedgerEntry "e-1" "txn-3" "2024-05-01T11:00:00Z" "USD"
    [mkLedgerLine "hold" (Some 20%float) None;
     mkLedgerLine "cash" None (Some 20%float)]
    None (Some "aa") None.

(** A balanced entry sent without a hash and with a [prev_hash] that is
    not the hash of [entry_first]. *)
Definition entry_second : LedgerEntry :=
  mkLedgerEntry "e-2" "txn-3" "2024-05-01T11:01:00Z" "USD"
    [mkLedgerLine "clearing" (Some 20%float) None;
     mkLedgerLine "hold" None (Some 20%float)]
    None None (Some "ff").

(** [entry_first] again under the same [entry_id], with another amount. *)
Definition entry_first_changed : LedgerEntry :=
  mkLedgerEntry "e-1" "txn-3" "2024-05-01T11:00:00Z" "USD"
    [mkLedgerLine "hold" (Some 75%float) None;
     mkLedgerLine "cash" None (Some 75%float)]
    None (Some "aa") None.

End Ledger.

(** ** src/cmd/consent/main.py *)

Module Consent.

Record ConsentLimits : Type := mkConsentLimits {
  single_txn_usd : float;
  daily_usd : float;
  max_txn_per_hour : Z
}.

Record CosignRule : Type := mkCosignRule {
  threshold_usd : float;
  approver_group : string
}.

Record Consent : Type := mkConsent {
  id : string;
  agent_id : string;
  owner_party_id : string;
  rails : list string;
  counterparties_allow : list string;
  limits : ConsentLimits;
  policy_bundle_version : string;
  cosign_rule : CosignRule;
  created_at : string;
  revoked : bool
}.

(** [consents_db = {}]. *)
Definition consents_db_init : gmap string Consent := ∅.

(** [POST /consents]: [consent.id in consents_db] is the only check. *)
Definition create_consent (consent : Consent)
    (consents_db : gmap string Consent)
  : response Consent * gmap string Consent :=
  match consents_db !! id consent with
  | Some _ =>
      (Raised (mkHTTPException 409 "Consent already exists"), consents_db)
  | None =>
      (Returned consent, <[id consent := consent]> consents_db)
  end.

(** [GET /consents/{consent_id}]. *)
Definition get_consent (consent_id : string)
    (consents_db : gmap string Consent) : response Consent :=
  match consents_db !! consent_id with
  | None => Raised (mkHTTPException 404 "Consent not found")
  | Some consent => Returned consent
  end.

(** A run of [POST /consents] calls, the only writes the service makes to
    [consents_db]; the responses are dropped. *)
Definition create_all (consents : list Consent)
    (consents_db : gmap string Consent) : gmap string Consent :=
  fold_left (fun db c => snd (create_consent c db)) consents consents_db.

(** The limits check the specification asks of [create]: no limit is
    negative. *)
Definition spec_limits_nonnegative (l : ConsentLimits) : bool :=
  (0 <=? single_txn_usd l)%float && (0 <=? daily_usd l)%float
  && (0 <=? max_txn_per_hour l)%Z.

(** Consents the statements below are evaluated on. *)

Definition consent_negative_limits : Consent :=
  mkConsent "consent-neg" "agent-1" "party-1" ["ach"] ["acme"]
    (mkConsentLimits (-1)%float (-100)%float (-3))
    "v1" (mkCosignRule 1000%float "treasury") "2024-05-01T09:00:00Z" false.

Definition consent_revoked : Consent :=
  mkConsent "consent-rev" "agent-1" "party-1" ["ach"; "wire"] ["acme"]
    (mkConsentLimits 10000%float 10000%float 10)
    "v1" (mkCosignRule 1000000000%float "treasury") "2024-05-01T09:00:00Z"
    true.

(** A second consent sent under the id of [consent_revoked], not revoked. *)
Definition consent_reissued : Consent :=
  mkConsent "consent-rev" "agent-1" "party-1" ["ach"; "wire"] ["acme"]
    (mkConsentLimits 10000%float 10000%float 10)
    "v2" (mkCosignRule 1000000000%float "treasury") "2024-06-01T09:00:00Z"
    false.

End Consent.

(** ** ConsentStore.authorize *)

Module Authorize.
Import Consent.

(** One recorded authorization: its amount and the clock reading (in
    seconds) at which it was granted. *)
Record UsageEvent : Type := mkUsageEvent {
  used_amount : float;
  used_at : Z
}.

Inductive DenyReason : Type :=
| ConsentMissingOrRevoked
| AgentMismatch
| RailNotAllowed
| CounterpartyNotAllowed
| OverSingleTxnLimit
| OverDailyLimit
| OverHourlyCount.

Inductive Decision : Type :=
| Authorized
| RequiresCosign (group : string)
| Denied (reason : DenyReason).

(** Events no older than [window] seconds at clock reading [now]. *)
Definition in_window (window now : Z) (events : list UsageEvent)
  : list UsageEvent :=
  filter (fun e => now - used_at e <= window)%Z events.

Definition daily_sum (now : Z) (events : list UsageEvent) : float :=
  fold_left (fun acc e => (acc + used_amount e)%float)
            (in_window 86400 now events) 0%float.

Definition hourly_count (now : Z) (events : list UsageEvent) : Z :=
  Z.of_nat (length (in_window 3600 now events)).

(** Modelled from the spec: [authorize] of the ConsentStore, which
    src/cmd/consent/main.py does not define (the service has [POST
    /consents] and [GET /consents/{consent_id}] only).  Section 4.1 gives
    the checks, in order, stopping at the first that fails: the consent
    exists and is not revoked; [agent_id] matches; [rail] is one of
    [rails]; [counterparty] is one of [counterparties_allow]; [amount <=
    single_txn_usd]; the rolling 24h sum plus [amount] is at most
    [daily_usd]; the count over the trailing hour plus one is at most
    [max_txn_per_hour]; then [RequiresCosign] when [amount >=
    threshold_usd], else [Authorized].  Only [Authorized] records a usage
    event.  The consent is read from the [consents_db] of the source. *)
Definition authorize (consent_id agent : string) (amount : float)
    (currency counterparty rail : string) (window_clock : Z)
    (consents_db : gmap string Consent)
    (usage : gmap string (list UsageEvent))
  : Decision * gmap string (list UsageEvent) :=
  match consents_db !! consent_id with
  | None => (Denied ConsentMissingOrRevoked, usage)
  | Some c =>
      let events := default [] (usage !! consent_id) in
      if revoked c then (Denied ConsentMissingOrRevoked, usage)
      else if negb (String.eqb agent (agent_id c)) then
        (Denied AgentMismatch, usage)
      else if negb (bool_decide (rail ∈ rails c)) then
        (Denied RailNotAllowed, usage)
      else if negb (bool_decide (counterparty ∈ counterparties_allow c)) then
        (Denied CounterpartyNotAllowed, usage)
      else if negb (amount <=? single_txn_usd (limits c))%float then
        (Denied OverSingleTxnLimit, usage)
      else if negb (daily_sum window_clock events + amount
                    <=? daily_usd (limits c))%float then
        (Denied OverDailyLimit, usage)
      else if negb (hourly_count window_clock events + 1
                    <=? max_txn_per_hour (limits c))%Z then
        (Denied OverHourlyCount, usage)
      else if (threshold_usd (cosign_rule c) <=? amount)%float then
        (RequiresCosign (approver_group (cosign_rule c)), usage)
      else
        (Authorized,
         <[consent_id := mkUsageEvent amount window_clock :: events]> usage)
  end.

End Authorize.

(** ** src/cmd/risk/main.py *)

Module Risk.

Record RiskRequest : Type := mkRiskRequest {
  agent_id : string;
  amount : float;
  currency : string;
  counterparty : string;
  consent_id : string;
  context : option pydict
}.

Record RiskResponse : Type := mkRiskResponse {
  score : float;
  decision : string;
  reason : string
}.

(** [POST /score].  The literals [1000] and [0.5] of the source are the
    binary64 values Python compares against. *)
Definition score_risk (req : RiskRequest) : response RiskResponse :=
  let score := if (amount req <? 1000)%float then 0.1%float else 0.8%float in
  let decision := if (score <? 0.5)%float then "approve" else "review" in
  let reason := if (score <? 0.5)%float then "Low amount" else "High amount" in
  Returned (mkRiskResponse score decision reason).

(** The decision rule of the specification, over a configured pair of
    thresholds: approve below [approve_below], reject above
    [reject_above], review in between. *)
Record Thresholds : Type := mkThresholds {
  approve_below : float;
  reject_above : float
}.

Definition spec_decision (cfg : Thresholds) (score : float) : string :=
  if (score <? approve_below cfg)%float then "approve"
  else if (reject_above cfg <? score)%float then "reject"
  else "review".

(** Requests the statements below are evaluated on. *)
Definition request_small : RiskRequest :=
  mkRiskRequest "agent-1" 200%float "USD" "acme" "consent-1" None.

Definition request_large : RiskRequest :=
  mkRiskRequest "agent-1" 2000%float "USD" "acme" "consent-1" None.

End Risk.

(** ** src/cmd/router/main.py *)

Module Router.

Record RouteRequest : Type := mkRouteRequest {
  agent_id : string;
  amount : float;
  currency : string;
  counterparty : string;
  consent_id : string;
  memo : option string
}.

Record RouteResponse : Type := mkRouteResponse {
  status : string;
  rail : string;
  plan : string
}.

(** [POST /route]. *)
Definition route_payment (req : RouteRequest) : response RouteResponse :=
  let rail := if (amount req <? 5000)%float then "ach" else "wire" in
  let plan :=
    "authorize, place hold, submit, settle, release hold, reconcile" in
  Returned (mkRouteResponse "routed" rail plan).

(** The steps a plan string lists: its pieces between [", "]. *)
Fixpoint split_steps (acc s : string) : list string :=
  match s with
  | EmptyString => [acc]
  | String ","%char (String " "%char rest) => acc :: split_steps "" rest
  | String c rest => split_steps (acc +:+ String c "") rest
  end.

Definition plan_steps (r : RouteResponse) : list string :=
  split_steps "" (plan r).

(** The step sequence of a plan as the specification names it. *)
Definition spec_plan_steps : list string :=
  ["authorize"; "hold"; "submit"; "settle"; "release_hold"; "reconcile"].

(** A request reduced to what [route_payment] reads of it. *)
Definition amount_only (req : RouteRequest) : RouteRequest :=
  mkRouteRequest "" (amount req) "" "" "" None.

(** Requests the statements below are evaluated on. *)
Definition request_2000 : RouteRequest :=
  mkRouteRequest "agent-1" 2000%float "USD" "acme" "consent-1" None.

Definition request_8000 : RouteRequest :=
  mkRouteRequest "agent-1" 8000%float "USD" "acme" "consent-1" None.

(** A negative amount in an unknown currency to an unnamed counterparty. *)
Definition request_odd : RouteRequest :=
  mkRouteRequest "agent-1" (-5)%float "???" "" "consent-1" None.

End Router.

(** ** src/cmd/orchestration/main.py *)

Module Orchestration.

Record OrchestrationRequest : Type := mkOrchestrationRequest {
  agent_id : string;
  consent_id : string;
  amount : float;
  currency : string;
  counterparty : string;
  memo : option string
}.

Record OrchestrationStatus : Type := mkOrchestrationStatus {
  workflow_id : string;
  status : string;
  details : option string
}.

(** [orchestration_db = {}]. *)
Definition orchestration_db_init : gmap string OrchestrationStatus := ∅.

Section Handlers.

(** How Python prints a float inside an f-string ([str] of the float, its
    shortest repr that reads back).  The handlers only splice the result
    into the workflow id, so it stays a parameter. *)
Variable format_float : float -> string.

(** [POST /orchestrate].  The assignment [orchestration_db[workflow_id] =
    status] replaces whatever was stored under that key. *)
Definition start_orchestration (req : OrchestrationRequest)
    (orchestration_db : gmap string OrchestrationStatus)
  : response OrchestrationStatus * gmap string OrchestrationStatus :=
  let workflow_id :=
    "wf_" +:+ agent_id req +:+ "_" +:+ format_float (amount req) in
  let status :=
    mkOrchestrationStatus workflow_id "started"
      (Some "Orchestration initiated") in
  (Returned status, <[workflow_id := status]> orchestration_db).

End Handlers.

(** [GET /orchestrate/{workflow_id}]. *)
Definition get_orchestration_status (workflow_id : string)
    (orchestration_db : gmap string OrchestrationStatus)
  : response OrchestrationStatus :=
  match orchestration_db !! workflow_id with
  | None => Raised (mkHTTPException 404 "Workflow not found")
  | Some status => Returned status
  end.

(** Two requests of one agent for one amount, to different counterparties
    in different currencies under different consents. *)
Definition request_acme : OrchestrationRequest :=
  mkOrchestrationRequest "agent-1" "consent-1" 2000%float "USD" "acme" None.

Definition request_globex : OrchestrationRequest :=
  mkOrchestrationRequest "agent-1" "consent-2" 2000%float "EUR" "globex"
    (Some "invoice 7").

End Orchestration.

(** ** src/cmd/compliance/main.py *)

Module Compliance.

Record Party : Type := mkParty {
  id : string;
  name : string;
  type : string;
  created_at : string
}.

Record OnboardingStatus : Type := mkOnboardingStatus {
  party_id : string;
  status : string;
  details : option string
}.

(** [onboarding_db = {}]. *)
Definition onboarding_db_init : gmap string OnboardingStatus := ∅.

(** [POST /onboard]: the assignment [onboarding_db[party.id] = status]
    replaces whatever was stored for that party. *)
Definition start_onboarding (party : Party)
    (onboarding_db : gmap string OnboardingStatus)
  : response OnboardingStatus * gmap string OnboardingStatus :=
  let status :=
    mkOnboardingStatus (id party) "pending" (Some "KYB/KYC started") in
  (Returned status, <[id party := status]> onboarding_db).

(** [GET /onboard/{party_id}]. *)
Definition get_onboarding_status (party_id : string)
    (onboarding_db : gmap string OnboardingStatus)
  : response OnboardingStatus :=
  match onboarding_db !! party_id with
  | None => Raised (mkHTTPException 404 "Onboarding not found")
  | Some status => Returned status
  end.

(** Two parties sent under one id. *)
Definition party_acme : Party :=
  mkParty "party-1" "Acme Ltd" "organization" "2024-04-01T08:00:00Z".

Definition party_acme_renamed : Party :=
  mkParty "party-1" "A. Cme" "individual" "2024-04-02T08:00:00Z".

Definition party_globex : Party :=
  mkParty "party-2" "Globex" "organization" "2024-04-03T08:00:00Z".

End Compliance.

(** ** Runs of requests

    A service handles one request after the other, each on the store the
    previous one left.  The definitions here feed a list of requests to
    one handler, in order. *)

Module Runs.

(** How many responses of a run were returned rather than raised. *)
Definition accepted {A} (rs : list (response A)) : nat :=
  length (List.filter (fun r => negb (is_raised r)) rs).

(** The ledger after [POST /ledger] for each of [entries]. *)
Definition post_all (entries : list Ledger.LedgerEntry)
    (ledger_db : gmap string Ledger.LedgerEntry)
  : gmap string Ledger.LedgerEntry :=
  fold_left (fun db e => snd (Ledger.post_ledger_entry e db))
            entries ledger_db.

(** The responses those posts get. *)
Fixpoint post_responses (entries : list Ledger.LedgerEntry)
    (ledger_db : gmap string Ledger.LedgerEntry)
  : list (response Ledger.LedgerEntry) :=
  match entries with
  | [] => []
  | e :: rest =>
      fst (Ledger.post_ledger_entry e ledger_db)
      :: post_responses rest (snd (Ledger.post_ledger_entry e ledger_db))
  end.

(** The first of [entries] sent under [entry_id]. *)
Definition first_posted (entry_id : string)
    (entries : list Ledger.LedgerEntry) : option Ledger.LedgerEntry :=
  List.find (fun e => String.eqb (Ledger.entry_id e) entry_id) entries.

(** The first of [consents] sent under [consent_id]. *)
Definition first_created (consent_id : string)
    (consents : list Consent.Consent) : option Consent.Consent :=
  List.find (fun c => String.eqb (Consent.id c) consent_id) consents.

(** The onboarding store after [POST /onboard] for each of [parties]. *)
Definition onboard_all (parties : list Compliance.Party)
    (onboarding_db : gmap string Compliance.OnboardingStatus)
  : gmap string Compliance.OnboardingStatus :=
  fold_left (fun db p => snd (Compliance.start_onboarding p db))
            parties onboarding_db.

Section Orchestrations.
Variable format_float : float -> string.

(** The key [start_orchestration] computes for a request (the f-string
    of its first line). *)
Definition workflow_key (req : Orchestration.OrchestrationRequest) : string :=
  "wf_" +:+ Orchestration.agent_id req +:+ "_"
  +:+ format_float (Orchestration.amount req).

(** The workflow store after [POST /orchestrate] for each of [reqs]. *)
Definition start_all (reqs : list Orchestration.OrchestrationRequest)
    (orchestration_db : gmap string Orchestration.OrchestrationStatus)
  : gmap string Orchestration.OrchestrationStatus :=
  fold_left
    (fun db r => snd (Orchestration.start_orchestration format_float r db))
    reqs orchestration_db.

End Orchestrations.

(** Requests the statements on runs are evaluated on. *)
Definition request_other_agent : Orchestration.OrchestrationRequest :=
  Orchestration.mkOrchestrationRequest "agent-2" "consent-1" 2000%float
    "USD" "acme" None.

Definition risk_refund : Risk.RiskRequest :=
  Risk.mkRiskRequest "agent-1" (-40)%float "USD" "acme" "consent-1" None.

Definition risk_nan : Risk.RiskRequest :=
  Risk.mkRiskRequest "agent-1" nan "USD" "acme" "consent-1" None.

Definition route_refund : Router.RouteRequest :=
  Router.mkRouteRequest "agent-1" (-40)%float "USD" "acme" "consent-1" None.

Definition route_nan : Router.RouteRequest :=
  Router.mkRouteRequest "agent-1" nan "USD" "acme" "consent-1" None.

End Runs.

(** ** Binary64 comparisons

    [PrimFloat.ltb] and [PrimFloat.leb] are specified by [SFcompare] on
    the decoded float.  The handlers compare amounts against thresholds;
    the facts needed about those comparisons are proved once, here. *)

Module FloatOrder.

Lemma SFcompare_swap (x y : spec_float) :
  SFcompare y x = option_map CompOpp (SFcompare x y).
Proof.
  destruct x as [sx|sx| |sx mx ex], y as [sy|sy| |sy my ey]; simpl;
    try reflexivity;
    try (destruct sx; reflexivity);
    try (destruct sy; reflexivity);
    try (destruct sx, sy; reflexivity).
  destruct sx, sy; simpl; try reflexivity;
    rewrite (Z.compare_antisym ex ey);
    destruct (ex ?= ey)%Z; simpl; try reflexivity;
    change Eq with (CompOpp Eq) at 1;
    rewrite <- (Pos.compare_cont_antisym mx my Eq);
    now rewrite ?CompOpp_involutive.
Qed.

(** [a <= b] excludes [b < a] (both are false when either is NaN). *)
Lemma leb_true_ltb_false (a b : float) :
  (a <=? b)%float = true -> (b <? a)%float = false.
Proof.
  rewrite leb_spec, ltb_spec. unfold SFleb, SFltb.
  rewrite (SFcompare_swap (Prim2SF a) (Prim2SF b)).
  destruct (SFcompare (Prim2SF a) (Prim2SF b)) as [[ | | ]|];
    simpl; intros H; try reflexivity; discriminate H.
Qed.

End FloatOrder.

(** ** The ledger *)

Module LedgerProofs.
Import Ledger.

Lemma post_fresh (entry : LedgerEntry) (db : gmap string LedgerEntry) :
  db !! entry_id entry = None ->
  post_ledger_entry entry db
  = (Returned entry, <[entry_id entry := entry]> db).
Proof. intros Hfresh. unfold post_ledger_entry. now rewrite Hfresh. Qed.

Lemma post_present (entry old : LedgerEntry) (db : gmap string LedgerEntry) :
  db !! entry_id entry = Some old ->
  post_ledger_entry entry db
  = (Raised (mkHTTPException 409 "Entry already exists"), db).
Proof. intros Hold. unfold post_ledger_entry. now rewrite Hold. Qed.

Lemma post_raised_inv (entry : LedgerEntry) (db db' : gmap string LedgerEntry)
    (err : HTTPException) :
  post_ledger_entry entry db = (Raised err, db') ->
  err = mkHTTPException 409 "Entry already exists"
  /\ db' = db /\ is_Some (db !! entry_id entry).
Proof.
  unfold post_ledger_entry.
  destruct (db !! entry_id entry) as [old|] eqn:Hlook; intros Hpost.
  - inversion Hpost; subst. eauto.
  - discriminate Hpost.
Qed.

Lemma post_returned_inv (entry r : LedgerEntry)
    (db db' : gmap string LedgerEntry) :
  post_ledger_entry entry db = (Returned r, db') ->
  r = entry /\ db' = <[entry_id entry := entry]> db
  /\ db !! entry_id entry = None.
Proof.
  unfold post_ledger_entry.
  destruct (db !! entry_id entry) as [old|] eqn:Hlook; intros Hpost.
  - discriminate Hpost.
  - inversion Hpost; subst. auto.
Qed.

Lemma get_after_insert (entry : LedgerEntry) (db : gmap string LedgerEntry) :
  get_ledger_entry (entry_id entry) (<[entry_id entry := entry]> db)
  = Returned entry.
Proof. unfold get_ledger_entry. now rewrite lookup_insert_eq. Qed.

(** C1, as the specification states it, fails: an entry whose debits
    (100) differ from its credits (50) is accepted and stored, and so is
    an entry with negative amounts. *)
Lemma post_accepts_unbalanced_and_negative :
  spec_balanced entry_unbalanced = false
  /\ fst (post_ledger_entry entry_unbalanced ledger_db_init)
     = Returned entry_unbalanced
  /\ get_ledger_entry "e-unbalanced"
       (snd (post_ledger_entry entry_unbalanced ledger_db_init))
     = Returned entry_unbalanced
  /\ spec_lines_positive entry_negative = false
  /\ fst (post_ledger_entry entry_negative ledger_db_init)
     = Returned entry_negative
  /\ get_ledger_entry "e-negative"
       (snd (post_ledger_entry entry_negative ledger_db_init))
     = Returned entry_negative.
Proof. repeat split; vm_compute; reflexivity. Qed.

(** C1 (amended): [post] accepts every entry whose [entry_id] is not yet
    in the ledger, whatever its lines are: it is returned and stored as
    sent, and a later [get] returns it. *)
Theorem post_accepts_every_fresh_entry
    (entry : LedgerEntry) (ledger_db : gmap string LedgerEntry) :
  ledger_db !! entry_id entry = None ->
  post_ledger_entry entry ledger_db
  = (Returned entry, <[entry_id entry := entry]> ledger_db)
  /\ get_ledger_entry (entry_id entry)
       (snd (post_ledger_entry entry ledger_db))
     = Returned entry.
Proof.
  intros Hfresh. rewrite (post_fresh _ _ Hfresh). split; [reflexivity|].
  apply get_after_insert.
Qed.

(** The theorem at [entry_unbalanced], posted to the empty ledger. *)
Lemma post_accepts_every_fresh_entry_witness :
  ledger_db_init !! entry_id entry_unbalanced = None
  /\ post_ledger_entry entry_unbalanced ledger_db_init
     = (Returned entry_unbalanced,
        <[entry_id entry_unbalanced := entry_unbalanced]> ledger_db_init)
  /\ get_ledger_entry (entry_id entry_unbalanced)
       (snd (post_ledger_entry entry_unbalanced ledger_db_init))
     = Returned entry_unbalanced.
Proof.
  split; [reflexivity|].
  apply (post_accepts_every_fresh_entry entry_unbalanced ledger_db_init).
  reflexivity.
Defined.

(** C2, as the specification states it, fails: posting [entry_first] a
    second time with identical content is refused with HTTP 409 instead
    of returning the committed entry; a post with changed content under
    the same [entry_id] gets the very same refusal. *)
Lemma post_identical_retry_is_refused :
  let db1 := snd (post_ledger_entry entry_first ledger_db_init) in
  fst (post_ledger_entry entry_first ledger_db_init) = Returned entry_first
  /\ post_ledger_entry entry_first db1
     = (Raised (mkHTTPException 409 "Entry already exists"), db1)
  /\ fst (post_ledger_entry entry_first db1) <> Returned entry_first
  /\ post_ledger_entry entry_first_changed db1
     = (Raised (mkHTTPException 409 "Entry already exists"), db1).
Proof.
  cbv zeta. split; [reflexivity|].
  assert (Hdb : snd (post_ledger_entry entry_first ledger_db_init) !! "e-1"
                = Some entry_first) by reflexivity.
  split; [exact (post_present entry_first _ _ Hdb)|].
  split; [rewrite (post_present entry_first _ _ Hdb); discriminate|].
  exact (post_present entry_first_changed _ _ Hdb).
Qed.

(** C2 (amended): for every [entry_id] already in the ledger, a second
    post under that [entry_id] is refused with HTTP 409 "Entry already
    exists" whether its content equals the committed entry or not; the
    ledger is left as it was and still holds the committed entry. *)
Theorem post_duplicate_refused_whatever_content
    (entry committed : LedgerEntry) (ledger_db : gmap string LedgerEntry) :
  ledger_db !! entry_id entry = Some committed ->
  post_ledger_entry entry ledger_db
  = (Raised (mkHTTPException 409 "Entry already exists"), ledger_db)
  /\ get_ledger_entry (entry_id entry)
       (snd (post_ledger_entry entry ledger_db))
     = Returned committed.
Proof.
  intros Hcommitted.
  rewrite (post_present entry committed ledger_db Hcommitted).
  split; [reflexivity|].
  unfold get_ledger_entry. simpl. now rewrite Hcommitted.
Qed.

(** The theorem at a retry with identical content: [entry_first] posted
    to the ledger that already holds [entry_first]. *)
Lemma post_duplicate_refused_witness :
  let db1 := snd (post_ledger_entry entry_first ledger_db_init) in
  db1 !! entry_id entry_first = Some entry_first
  /\ post_ledger_entry entry_first db1
     = (Raised (mkHTTPException 409 "Entry already exists"), db1)
  /\ get_ledger_entry (entry_id entry_first)
       (snd (post_ledger_entry entry_first db1))
     = Returned entry_first.
Proof.
  cbv zeta. split; [reflexivity|].
  apply (post_duplicate_refused_whatever_content entry_first entry_first).
  reflexivity.
Defined.

(** C3, as the specification states it, fails: after [entry_first] (sent
    with hash "aa") and then [entry_second] (sent without a hash and with
    [prev_hash] "ff") are accepted, the stored second entry still has
    [prev_hash] "ff", not the hash of the entry accepted before it, and
    no hash at all; so no content hash makes the chain invariant hold. *)
Lemma post_keeps_caller_hash_fields :
  let db1 := snd (post_ledger_entry entry_first ledger_db_init) in
  let db2 := snd (post_ledger_entry entry_second db1) in
  get_ledger_entry "e-1" db2 = Returned entry_first
  /\ get_ledger_entry "e-2" db2 = Returned entry_second
  /\ prev_hash entry_second <> hash entry_first
  /\ hash entry_second = None
  /\ ~ (exists contentHash, spec_chained contentHash entry_first entry_second).
Proof.
  cbv zeta. repeat split; try (vm_compute; reflexivity).
  - discriminate.
  - intros [contentHash [Hprev _]]. discriminate Hprev.
Qed.

(** C3 (amended): for every entry accepted by [post], the entry returned
    and stored is the caller's entry, field for field; in particular its
    [hash] and [prev_hash] are the values the caller sent ([None] when
    omitted), whatever the ledger held at acceptance. *)
Theorem post_stores_hash_fields_as_sent
    (entry accepted : LedgerEntry)
    (ledger_db ledger_db' : gmap string LedgerEntry) :
  post_ledger_entry entry ledger_db = (Returned accepted, ledger_db') ->
  accepted = entry
  /\ exists stored,
       get_ledger_entry (entry_id entry) ledger_db' = Returned stored
       /\ stored = entry
       /\ hash stored = hash entry
       /\ prev_hash stored = prev_hash entry.
Proof.
  intros Hpost.
  destruct (post_returned_inv _ _ _ _ Hpost) as (-> & -> & _).
  split; [reflexivity|]. exists entry.
  rewrite get_after_insert. auto.
Qed.

(** The theorem at [entry_second], accepted by the ledger that holds
    [entry_first]. *)
Lemma post_stores_hash_fields_witness :
  let db1 := snd (post_ledger_entry entry_first ledger_db_init) in
  post_ledger_entry entry_second db1
  = (Returned entry_second, <["e-2" := entry_second]> db1)
  /\ exists stored,
       get_ledger_entry "e-2" (<["e-2" := entry_second]> db1)
       = Returned stored
       /\ stored = entry_second
       /\ hash stored = None
       /\ prev_hash stored = Some "ff".
Proof.
  cbv zeta. split; [reflexivity|].
  apply (post_stores_hash_fields_as_sent entry_second entry_second
           (snd (post_ledger_entry entry_first ledger_db_init))
           (<["e-2" := entry_second]>
              (snd (post_ledger_entry entry_first ledger_db_init)))
           eq_refl).
Defined.

End LedgerProofs.

(** ** The consent store *)

Module ConsentProofs.
Import Consent.

Lemma create_fresh (consent : Consent) (db : gmap string Consent) :
  db !! id consent = None ->
  create_consent consent db = (Returned consent, <[id consent := consent]> db).
Proof. intros Hfresh. unfold create_consent. now rewrite Hfresh. Qed.

Lemma create_present (consent old : Consent) (db : gmap string Consent) :
  db !! id consent = Some old ->
  create_consent consent db
  = (Raised (mkHTTPException 409 "Consent already exists"), db).
Proof. intros Hold. unfold create_consent. now rewrite Hold. Qed.

Lemma create_raised_inv (consent : Consent) (db db' : gmap string Consent)
    (err : HTTPException) :
  create_consent consent db = (Raised err, db') ->
  err = mkHTTPException 409 "Consent already exists"
  /\ db' = db /\ is_Some (db !! id consent).
Proof.
  unfold create_consent.
  destruct (db !! id consent) as [old|] eqn:Hlook; intros Hcreate.
  - inversion Hcreate; subst. eauto.
  - discriminate Hcreate.
Qed.

(** A stored consent survives every later [POST /consents]: a create
    under its id is refused, a create under another id leaves it alone. *)
Lemma create_keeps_stored (consent c : Consent) (k : string)
    (db : gmap string Consent) :
  db !! k = Some c -> snd (create_consent consent db) !! k = Some c.
Proof.
  intros Hk. unfold create_consent.
  destruct (db !! id consent) as [old|] eqn:Hlook; simpl; [exact Hk|].
  rewrite lookup_insert_ne; [exact Hk|]. congruence.
Qed.

Lemma create_all_keeps_stored (later : list Consent) (c : Consent)
    (k : string) (db : gmap string Consent) :
  db !! k = Some c -> create_all later db !! k = Some c.
Proof.
  revert db. induction later as [|consent later IH]; intros db Hk.
  - exact Hk.
  - simpl. apply IH. now apply create_keeps_stored.
Qed.

(** C8, as the specification states it, fails: a consent whose three
    limits are negative is inserted and returned. *)
Lemma create_accepts_negative_limits :
  spec_limits_nonnegative (limits consent_negative_limits) = false
  /\ fst (create_consent consent_negative_limits consents_db_init)
     = Returned consent_negative_limits
  /\ get_consent "consent-neg"
       (snd (create_consent consent_negative_limits consents_db_init))
     = Returned consent_negative_limits.
Proof. repeat split; vm_compute; reflexivity. Qed.

(** C8 (amended): [create_consent] is refused with HTTP 409 "Consent
    already exists" for every consent whose id is already in the store,
    and the store is left as it was; it makes no check of the limits:
    every consent whose id is free is inserted and returned as sent. *)
Theorem create_consent_checks_id_only
    (consent : Consent) (consents_db : gmap string Consent) :
  (is_Some (consents_db !! id consent) ->
   create_consent consent consents_db
   = (Raised (mkHTTPException 409 "Consent already exists"), consents_db))
  /\ (consents_db !! id consent = None ->
      create_consent consent consents_db
      = (Returned consent, <[id consent := consent]> consents_db)
      /\ get_consent (id consent) (snd (create_consent consent consents_db))
         = Returned consent).
Proof.
  split.
  - intros [old Hold]. exact (create_present consent old consents_db Hold).
  - intros Hfresh. rewrite (create_fresh _ _ Hfresh). split; [reflexivity|].
    unfold get_consent. simpl. now rewrite lookup_insert_eq.
Qed.

(** The theorem at [consent_negative_limits]: refused once stored,
    inserted into the empty store. *)
Lemma create_consent_checks_id_only_witness :
  let db1 := snd (create_consent consent_negative_limits consents_db_init) in
  create_consent consent_negative_limits db1
  = (Raised (mkHTTPException 409 "Consent already exists"), db1)
  /\ create_consent consent_negative_limits consents_db_init
     = (Returned consent_negative_limits,
        <[id consent_negative_limits := consent_negative_limits]>
          consents_db_init)
  /\ get_consent (id consent_negative_limits)
       (snd (create_consent consent_negative_limits consents_db_init))
     = Returned consent_negative_limits.
Proof.
  cbv zeta. split.
  - apply (proj1 (create_consent_checks_id_only consent_negative_limits _)).
    exists consent_negative_limits. reflexivity.
  - apply (proj2 (create_consent_checks_id_only consent_negative_limits
                    consents_db_init)).
    reflexivity.
Defined.

End ConsentProofs.

(** ** Authorization against a revoked consent *)

Module AuthorizeProofs.
Import Consent Authorize.

Lemma authorize_revoked (consent_id : string) (c : Consent)
    (consents_db : gmap string Consent) :
  consents_db !! consent_id = Some c ->
  revoked c = true ->
  forall agent amount currency counterparty rail window_clock usage,
    authorize consent_id agent amount currency counterparty rail
      window_clock consents_db usage
    = (Denied ConsentMissingOrRevoked, usage).
Proof.
  intros Hstored Hrevoked agent amount currency counterparty rail now usage.
  unfold authorize. rewrite Hstored, Hrevoked. reflexivity.
Qed.

(** The same call is [Authorized] against the unrevoked
    [consent_reissued], and recorded; at the cosign threshold it is
    [RequiresCosign]; above the single-transaction limit it is [Denied]. *)
Example authorize_unrevoked :
  let db := snd (create_consent consent_reissued consents_db_init) in
  authorize "consent-rev" "agent-1" 1%float "USD" "acme" "ach" 0 db ∅
  = (Authorized, {["consent-rev" := [mkUsageEvent 1%float 0]]})
  /\ authorize "consent-rev" "agent-1" 20000%float "USD" "acme" "ach" 0 db ∅
     = (Denied OverSingleTxnLimit, ∅)
  /\ authorize "consent-rev" "agent-2" 1%float "USD" "acme" "ach" 0 db ∅
     = (Denied AgentMismatch, ∅).
Proof. cbv zeta. repeat split; vm_compute; reflexivity. Qed.

(** C4: once a revoked consent is in the store, every [authorize] call
    against it is [Denied], whatever the agent, amount, currency,
    counterparty, rail, clock reading and recorded usage, and whatever
    consents are created in between; the usage record is not touched.  It
    never yields [Authorized] or [RequiresCosign]. *)
Theorem revoked_consent_is_always_denied
    (consent_id : string) (c : Consent) (consents_db : gmap string Consent)
    (later : list Consent)
    (agent : string) (amount : float) (currency counterparty rail : string)
    (window_clock : Z) (usage : gmap string (list UsageEvent)) :
  consents_db !! consent_id = Some c ->
  revoked c = true ->
  authorize consent_id agent amount currency counterparty rail window_clock
    (create_all later consents_db) usage
  = (Denied ConsentMissingOrRevoked, usage).
Proof.
  intros Hstored Hrevoked.
  apply (authorize_revoked consent_id c); [|exact Hrevoked].
  now apply ConsentProofs.create_all_keeps_stored.
Qed.

(** The theorem at [consent_revoked], stored by [create_consent], after an
    attempt to create an unrevoked consent under the same id, for an
    amount of 1 within every limit. *)
Lemma revoked_consent_is_always_denied_witness :
  let db := snd (create_consent consent_revoked consents_db_init) in
  db !! "consent-rev" = Some consent_revoked
  /\ revoked consent_revoked = true
  /\ authorize "consent-rev" "agent-1" 1%float "USD" "acme" "ach" 0
       (create_all [consent_reissued] db) ∅
     = (Denied ConsentMissingOrRevoked, ∅).
Proof.
  cbv zeta. split; [reflexivity|]. split; [reflexivity|].
  apply (revoked_consent_is_always_denied "consent-rev" consent_revoked);
    reflexivity.
Defined.

End AuthorizeProofs.

(** ** The risk gate *)

Module RiskProofs.
Import Risk.

Lemma decision_cases (req : RiskRequest) :
  score_risk req
  = Returned (if (amount req <? 1000)%float
              then mkRiskResponse 0.1%float "approve" "Low amount"
              else mkRiskResponse 0.8%float "review" "High amount").
Proof.
  unfold score_risk. destruct (amount req <? 1000)%float; reflexivity.
Qed.

(** C5, as the specification states it, fails: with thresholds
    [approve_below = 0.5] and [reject_above = 0.7] the rule of the
    specification rejects the score 0.8 that [score_risk] returns for an
    amount of 2000, while the returned decision is "review"; and no
    request at all is answered "reject". *)
Lemma score_risk_never_rejects :
  (exists resp,
     score_risk request_large = Returned resp
     /\ decision resp = "review"
     /\ spec_decision (mkThresholds 0.5%float 0.7%float) (score resp)
        = "reject")
  /\ ~ (exists req resp,
          score_risk req = Returned resp /\ decision resp = "reject").
Proof.
  split.
  - eexists. split; [reflexivity|]. split; vm_compute; reflexivity.
  - intros (req & resp & Hscore & Hdecision).
    rewrite decision_cases in Hscore.
    destruct (amount req <? 1000)%float; inversion Hscore; subst;
      discriminate Hdecision.
Qed.

(** C5 (amended): [score_risk] returns the score 0.1 for an amount below
    1000 and 0.8 otherwise, and decides by the fixed threshold 0.5:
    "approve" for the former, "review" for the latter, never "reject";
    both decisions are reachable.  The thresholds are not configurable.
    The returned decision is the one the rule of the specification gives
    for a pair of thresholds, on every request, if and only if
    [0.1 < approve_below], not [0.8 < approve_below] and not
    [reject_above < 0.8]; in particular it is whenever
    [0.1 < approve_below <= 0.8 <= reject_above]. *)
Theorem score_risk_decides_by_fixed_threshold (cfg : Thresholds) :
  (forall req, exists resp,
      score_risk req = Returned resp
      /\ score resp = (if (amount req <? 1000)%float then 0.1 else 0.8)%float
      /\ decision resp
         = (if (score resp <? 0.5)%float then "approve" else "review")
      /\ decision resp <> "reject")
  /\ ((forall req, exists resp,
          score_risk req = Returned resp
          /\ decision resp = spec_decision cfg (score resp))
      <-> ((0.1 <? approve_below cfg)%float = true
           /\ (0.8 <? approve_below cfg)%float = false
           /\ (reject_above cfg <? 0.8)%float = false))
  /\ ((0.1 <? approve_below cfg)%float = true ->
      (approve_below cfg <=? 0.8)%float = true ->
      (0.8 <=? reject_above cfg)%float = true ->
      forall req, exists resp,
        score_risk req = Returned resp
        /\ decision resp = spec_decision cfg (score resp))
  /\ (exists req resp,
        score_risk req = Returned resp /\ decision resp = "approve")
  /\ (exists req resp,
        score_risk req = Returned resp /\ decision resp = "review").
Proof.
  assert (Hif : (0.1 <? approve_below cfg)%float = true ->
                (0.8 <? approve_below cfg)%float = false ->
                (reject_above cfg <? 0.8)%float = false ->
                forall req, exists resp,
                  score_risk req = Returned resp
                  /\ decision resp = spec_decision cfg (score resp)).
  { intros Hlow Hmid Hhigh req. rewrite decision_cases. eexists.
    split; [reflexivity|]. unfold spec_decision.
    destruct (amount req <? 1000)%float; simpl.
    - now rewrite Hlow.
    - now rewrite Hmid, Hhigh. }
  split; [|split; [|split; [|split]]].
  - intros req. rewrite decision_cases. eexists. split; [reflexivity|].
    destruct (amount req <? 1000)%float; simpl;
      repeat split; try reflexivity; discriminate.
  - split.
    + intros Hagree.
      destruct (Hagree request_small) as (small & Hsmall & Hdsmall).
      destruct (Hagree request_large) as (large & Hlarge & Hdlarge).
      rewrite decision_cases in Hsmall, Hlarge.
      change (amount request_small <? 1000)%float with true in Hsmall.
      change (amount request_large <? 1000)%float with false in Hlarge.
      injection Hsmall as <-. injection Hlarge as <-.
      unfold spec_decision in Hdsmall, Hdlarge. simpl in Hdsmall, Hdlarge.
      destruct (0.1 <? approve_below cfg)%float;
        [|destruct (reject_above cfg <? 0.1)%float; discriminate Hdsmall].
      destruct (0.8 <? approve_below cfg)%float; [discriminate Hdlarge|].
      destruct (reject_above cfg <? 0.8)%float; [discriminate Hdlarge|].
      auto.
    + intros (Hlow & Hmid & Hhigh). now apply Hif.
  - intros Hlow Hmid Hhigh.
    apply FloatOrder.leb_true_ltb_false in Hmid, Hhigh. now apply Hif.
  - exists request_small. eexists. split; reflexivity.
  - exists request_large. eexists. split; reflexivity.
Qed.

(** The theorem at the thresholds 0.5 and 0.8, on [request_large]. *)
Lemma score_risk_decides_witness :
  (0.1 <? 0.5)%float = true
  /\ (0.5 <=? 0.8)%float = true
  /\ (0.8 <=? 0.8)%float = true
  /\ exists resp,
       score_risk request_large = Returned resp
       /\ decision resp
          = spec_decision (mkThresholds 0.5%float 0.8%float) (score resp).
Proof.
  repeat (split; [reflexivity|]).
  destruct (score_risk_decides_by_fixed_threshold
              (mkThresholds 0.5%float 0.8%float))
    as (_ & _ & Hrange & _).
  exact (Hrange eq_refl eq_refl eq_refl request_large).
Defined.

End RiskProofs.

(** ** The router *)

Module RouterProofs.
Import Router.

Lemma route_cases (req : RouteRequest) :
  route_payment req
  = Returned
      (mkRouteResponse "routed"
         (if (amount req <? 5000)%float then "ach" else "wire")
         "authorize, place hold, submit, settle, release hold, reconcile").
Proof. reflexivity. Qed.

(** C6, as the specification states it, fails: the plan of a response is
    one free-text string, "authorize, place hold, submit, settle, release
    hold, reconcile".  It is not the text of the sequence authorize,
    hold, submit, settle, release_hold, reconcile, and cut at its commas
    it gives "place hold" and "release hold" where the specification has
    hold and release_hold; no request gets the sequence of the
    specification. *)
Lemma route_plan_is_not_the_spec_sequence :
  (exists resp,
     route_payment request_2000 = Returned resp
     /\ plan resp
        <> "authorize, hold, submit, settle, release_hold, reconcile"
     /\ plan_steps resp
        = ["authorize"; "place hold"; "submit"; "settle"; "release hold";
           "reconcile"]
     /\ plan_steps resp <> spec_plan_steps)
  /\ ~ (exists req resp,
          route_payment req = Returned resp
          /\ plan_steps resp = spec_plan_steps).
Proof.
  split.
  - eexists. split; [reflexivity|]. simpl.
    split; [discriminate|]. split; [reflexivity | discriminate].
  - intros (req & resp & Hroute & Hsteps).
    rewrite route_cases in Hroute. injection Hroute as <-.
    discriminate Hsteps.
Qed.

(** C6 (amended): the router answers every request; the rail is "ach"
    when [amount < 5000] and "wire" when [amount >= 5000]; the plan is,
    for both rails, the one string "authorize, place hold, submit,
    settle, release hold, reconcile", whose pieces between the commas
    are, in order, authorize, place hold, submit, settle, release hold
    and reconcile. *)
Theorem route_payment_rail_by_amount_plan_fixed (req : RouteRequest) :
  exists resp,
    route_payment req = Returned resp
    /\ ((amount req <? 5000)%float = true -> rail resp = "ach")
    /\ ((5000 <=? amount req)%float = true -> rail resp = "wire")
    /\ plan resp
       = "authorize, place hold, submit, settle, release hold, reconcile"
    /\ plan_steps resp
       = ["authorize"; "place hold"; "submit"; "settle"; "release hold";
          "reconcile"].
Proof.
  rewrite route_cases. eexists. split; [reflexivity|]. simpl.
  split; [|split; [|split; reflexivity]].
  - intros Hlt. now rewrite Hlt.
  - intros Hge. apply FloatOrder.leb_true_ltb_false in Hge. now rewrite Hge.
Qed.

(** The theorem at an amount of 2000 (below the band) and of 8000. *)
Lemma route_payment_rail_witness :
  (exists resp,
     route_payment request_2000 = Returned resp /\ rail resp = "ach"
     /\ plan_steps resp
        = ["authorize"; "place hold"; "submit"; "settle"; "release hold";
           "reconcile"])
  /\ (exists resp,
        route_payment request_8000 = Returned resp /\ rail resp = "wire"
        /\ plan_steps resp
           = ["authorize"; "place hold"; "submit"; "settle"; "release hold";
              "reconcile"]).
Proof.
  split.
  - destruct (route_payment_rail_by_amount_plan_fixed request_2000)
      as (resp & Hresp & Hach & _ & _ & Hsteps).
    exists resp. split; [exact Hresp|]. split; [|exact Hsteps].
    apply Hach. reflexivity.
  - destruct (route_payment_rail_by_amount_plan_fixed request_8000)
      as (resp & Hresp & _ & Hwire & _ & Hsteps).
    exists resp. split; [exact Hresp|]. split; [|exact Hsteps].
    apply Hwire. reflexivity.
Defined.

(** C7, as the specification states it, fails: no request makes
    [route_payment] fail.  A negative amount in an unknown currency to an
    unnamed counterparty is routed on "ach". *)
Lemma route_payment_never_fails :
  route_payment request_odd
  = Returned (mkRouteResponse "routed" "ach"
      "authorize, place hold, submit, settle, release hold, reconcile")
  /\ ~ (exists req err, route_payment req = Raised err).
Proof.
  split; [reflexivity|].
  intros (req & err & Hroute). rewrite route_cases in Hroute.
  discriminate Hroute.
Qed.

(** C7 (amended): [route_payment] returns a plan with status "routed"
    for every request.  Its two amount bands cover every amount: the
    rail is "ach" when [amount < 5000] holds and "wire" in every other
    case.  Currency and counterparty are not read: the answer is that
    for the bare amount.  No failure such as NoEligibleRail is raised. *)
Theorem route_payment_total_two_bands (req : RouteRequest) :
  exists resp,
    route_payment req = Returned resp
    /\ is_raised (route_payment req) = false
    /\ status resp = "routed"
    /\ rail resp = (if (amount req <? 5000)%float then "ach" else "wire")
    /\ route_payment (amount_only req) = Returned resp.
Proof.
  rewrite route_cases. eexists. split; [reflexivity|]. simpl.
  repeat split; reflexivity.
Qed.

End RouterProofs.

(** ** The orchestrator *)

Module OrchestrationProofs.
Import Orchestration.

Section WithFormat.
Variable format_float : float -> string.

Lemma start_cases (req : OrchestrationRequest)
    (db : gmap string OrchestrationStatus) :
  let wf := "wf_" +:+ agent_id req +:+ "_" +:+ format_float (amount req) in
  let st :=
    mkOrchestrationStatus wf "started" (Some "Orchestration initiated") in
  start_orchestration format_float req db = (Returned st, <[wf := st]> db).
Proof. reflexivity. Qed.

(** C9 (amended): the workflow id is "wf_", the agent id, "_" and the
    printed amount, and nothing else of the request.  Two requests with
    the same agent id and amount therefore get the same workflow id and
    the same stored record, whatever their consent, currency,
    counterparty and memo: starting the second leaves the store exactly
    as the first left it, with one record for both. *)
Theorem workflow_id_from_agent_and_amount
    (r1 r2 : OrchestrationRequest)
    (orchestration_db : gmap string OrchestrationStatus) :
  agent_id r1 = agent_id r2 ->
  amount r1 = amount r2 ->
  exists st,
    fst (start_orchestration format_float r1 orchestration_db) = Returned st
    /\ fst (start_orchestration format_float r2 orchestration_db)
       = Returned st
    /\ workflow_id st
       = "wf_" +:+ agent_id r1 +:+ "_" +:+ format_float (amount r1)
    /\ snd (start_orchestration format_float r2
              (snd (start_orchestration format_float r1 orchestration_db)))
       = snd (start_orchestration format_float r1 orchestration_db)
    /\ get_orchestration_status (workflow_id st)
         (snd (start_orchestration format_float r1 orchestration_db))
       = Returned st.
Proof.
  intros Hagent Hamount. eexists.
  rewrite !start_cases. cbv zeta. simpl.
  rewrite <- Hagent, <- Hamount.
  split; [reflexivity|]. split; [reflexivity|]. split; [reflexivity|].
  split.
  - apply insert_insert_eq.
  - unfold get_orchestration_status. now rewrite lookup_insert_eq.
Qed.

End WithFormat.

(** C9, as the specification states it, fails: [request_acme] and
    [request_globex] differ in consent, currency, counterparty and memo,
    yet however floats are printed they get the same workflow id, and
    both starts write the same record under that one key. *)
Lemma distinct_requests_share_workflow_id :
  request_acme <> request_globex
  /\ (forall format_float db,
        start_orchestration format_float request_acme db
        = start_orchestration format_float request_globex db)
  /\ ~ (forall format_float r1 r2 st1 st2 db,
          r1 <> r2 ->
          fst (start_orchestration format_float r1 db) = Returned st1 ->
          fst (start_orchestration format_float r2 db) = Returned st2 ->
          workflow_id st1 <> workflow_id st2).
Proof.
  split; [discriminate|]. split; [reflexivity|].
  intros Hunique.
  apply (Hunique (fun _ => "2000.0") request_acme request_globex
           _ _ ∅ ltac:(discriminate) eq_refl eq_refl).
  reflexivity.
Qed.

(** The theorem at [request_acme] and [request_globex], printing the
    amount as Python does ("2000.0"). *)
Lemma workflow_id_from_agent_and_amount_witness :
  agent_id request_acme = agent_id request_globex
  /\ amount request_acme = amount request_globex
  /\ exists st,
       fst (start_orchestration (fun _ => "2000.0") request_acme
              orchestration_db_init) = Returned st
       /\ fst (start_orchestration (fun _ => "2000.0") request_globex
                 orchestration_db_init) = Returned st
       /\ workflow_id st = "wf_agent-1_2000.0".
Proof.
  split; [reflexivity|]. split; [reflexivity|].
  destruct (workflow_id_from_agent_and_amount (fun _ => "2000.0")
              request_acme request_globex orchestration_db_init
              eq_refl eq_refl)
    as (st & H1 & H2 & Hid & _).
  exists st. auto.
Defined.

End OrchestrationProofs.

(** ** Refused duplicates leave the stores alone *)

Module Atomicity.

(** C10: when [create_consent] or [post_ledger_entry] fails, which is
    only for an id that is already present, the store it returns is the
    store it was given, and a [get] under that id then returns the entity
    that was stored there before the call. *)
Theorem duplicate_failure_leaves_store_unchanged :
  (forall consent consents_db err consents_db',
      Consent.create_consent consent consents_db = (Raised err, consents_db') ->
      consents_db' = consents_db
      /\ exists original,
           consents_db !! Consent.id consent = Some original
           /\ Consent.get_consent (Consent.id consent) consents_db'
              = Returned original)
  /\ (forall entry ledger_db err ledger_db',
        Ledger.post_ledger_entry entry ledger_db = (Raised err, ledger_db') ->
        ledger_db' = ledger_db
        /\ exists original,
             ledger_db !! Ledger.entry_id entry = Some original
             /\ Ledger.get_ledger_entry (Ledger.entry_id entry) ledger_db'
                = Returned original).
Proof.
  split.
  - intros consent db err db' Hcreate.
    destruct (ConsentProofs.create_raised_inv _ _ _ _ Hcreate)
      as (_ & -> & [original Horiginal]).
    split; [reflexivity|]. exists original. split; [exact Horiginal|].
    unfold Consent.get_consent. now rewrite Horiginal.
  - intros entry db err db' Hpost.
    destruct (LedgerProofs.post_raised_inv _ _ _ _ Hpost)
      as (_ & -> & [original Horiginal]).
    split; [reflexivity|]. exists original. split; [exact Horiginal|].
    unfold Ledger.get_ledger_entry. now rewrite Horiginal.
Qed.

(** The theorem at a refused [consent_reissued] (the store holds
    [consent_revoked] under its id) and a refused [entry_first_changed]
    (the ledger holds [entry_first] under its id). *)
Lemma duplicate_failure_witness :
  let cdb := snd (Consent.create_consent Consent.consent_revoked
                    Consent.consents_db_init) in
  let ldb := snd (Ledger.post_ledger_entry Ledger.entry_first
                    Ledger.ledger_db_init) in
  (Consent.create_consent Consent.consent_reissued cdb
   = (Raised (mkHTTPException 409 "Consent already exists"), cdb)
   /\ Consent.get_consent "consent-rev" cdb
      = Returned Consent.consent_revoked)
  /\ (Ledger.post_ledger_entry Ledger.entry_first_changed ldb
      = (Raised (mkHTTPException 409 "Entry already exists"), ldb)
      /\ Ledger.get_ledger_entry "e-1" ldb = Returned Ledger.entry_first).
Proof.
  cbv zeta. split.
  - split; [reflexivity|].
    destruct (proj1 duplicate_failure_leaves_store_unchanged
                Consent.consent_reissued
                (snd (Consent.create_consent Consent.consent_revoked
                        Consent.consents_db_init))
                (mkHTTPException 409 "Consent already exists")
                (snd (Consent.create_consent Consent.consent_revoked
                        Consent.consents_db_init))
                eq_refl)
      as (_ & original & Horiginal & Hget).
    injection Horiginal as <-. exact Hget.
  - split; [reflexivity|].
    destruct (proj2 duplicate_failure_leaves_store_unchanged
                Ledger.entry_first_changed
                (snd (Ledger.post_ledger_entry Ledger.entry_first
                        Ledger.ledger_db_init))
                (mkHTTPException 409 "Entry already exists")
                (snd (Ledger.post_ledger_entry Ledger.entry_first
                        Ledger.ledger_db_init))
                eq_refl)
      as (_ & original & Horiginal & Hget).
    injection Horiginal as <-. exact Hget.
Defined.

End Atomicity.

(** ** More on binary64 comparisons *)

Module FloatChain.

Lemma SFleb_ltb_trans (x y z : spec_float) :
  SFleb x y = true -> SFltb y z = true -> SFltb x z = true.
Proof.
  unfold SFleb, SFltb.
  destruct x as [sx|sx| |sx mx ex], y as [sy|sy| |sy my ey],
           z as [sz|sz| |sz mz ez]; simpl;
    try discriminate;
    try (destruct sx; simpl; try discriminate; try reflexivity;
         destruct sy; simpl; try discriminate; try reflexivity;
         destruct sz; simpl; try discriminate; reflexivity);
    try (destruct sx; simpl; try discriminate; try reflexivity;
         destruct sz; simpl; try discriminate; reflexivity);
    try (destruct sy; simpl; try discriminate; try reflexivity;
         destruct sz; simpl; try discriminate; reflexivity);
    try (destruct sx; simpl; try discriminate; try reflexivity;
         destruct sy; simpl; try discriminate; reflexivity).
  all: try (destruct sx, sy; simpl; try discriminate; try reflexivity).
  all: try (destruct sz; simpl; try discriminate; try reflexivity).
  all: try (destruct sy; simpl; try discriminate; try reflexivity).
  all: change (Pos.compare_cont Eq) with Pos.compare.
  all: destruct (Z.compare_spec ex ey), (Z.compare_spec ey ez),
         (Z.compare_spec ex ez); simpl; try discriminate; try reflexivity;
         try lia.
  all: destruct (Pos.compare_spec mx my), (Pos.compare_spec my mz),
         (Pos.compare_spec mx mz); simpl; try discriminate;
         try reflexivity; lia.
Qed.

(** [a <= b < c] gives [a < c]. *)
Lemma leb_ltb_trans (a b c : float) :
  (a <=? b)%float = true -> (b <? c)%float = true -> (a <? c)%float = true.
Proof. rewrite leb_spec, !ltb_spec. apply SFleb_ltb_trans. Qed.

Lemma ltb_leb (a b : float) :
  (a <? b)%float = true -> (a <=? b)%float = true.
Proof.
  rewrite leb_spec, ltb_spec. unfold SFleb, SFltb.
  destruct (SFcompare _ _) as [[| |]|]; congruence.
Qed.

Lemma ltb_trans (a b c : float) :
  (a <? b)%float = true -> (b <? c)%float = true -> (a <? c)%float = true.
Proof. intros Hab. apply leb_ltb_trans. now apply ltb_leb. Qed.

Lemma SFeqb_refl_false (x : spec_float) :
  SFeqb x x = false -> x = S754_nan.
Proof.
  unfold SFeqb. destruct x as [s|s| |s m e]; simpl; try reflexivity.
  - discriminate.
  - destruct s; discriminate.
  - change (Pos.compare_cont Eq m m) with (Pos.compare m m).
    destruct s; rewrite Z.compare_refl, Pos.compare_refl; discriminate.
Qed.

(** A float that differs from itself (a NaN) is below nothing. *)
Lemma nan_ltb (a c : float) :
  (a =? a)%float = false -> (a <? c)%float = false.
Proof.
  rewrite FloatAxioms.eqb_spec, ltb_spec. intros Hnan.
  apply SFeqb_refl_false in Hnan. now rewrite Hnan.
Qed.

End FloatChain.

(** ** Amounts at the risk gate and the router *)

Module AmountProofs.

Lemma approve_iff_below_1000 (req : Risk.RiskRequest) :
  exists resp,
    Risk.score_risk req = Returned resp
    /\ (Risk.decision resp = "approve"
        <-> (Risk.amount req <? 1000)%float = true)
    /\ (Risk.decision resp = "review"
        <-> (Risk.amount req <? 1000)%float = false)
    /\ Risk.score resp
       = (if (Risk.amount req <? 1000)%float then 0.1 else 0.8)%float.
Proof.
  rewrite RiskProofs.decision_cases. eexists. split; [reflexivity|].
  destruct (Risk.amount req <? 1000)%float; simpl;
    repeat split; intros; try reflexivity; discriminate.
Qed.

Lemma ach_iff_below_5000 (req : Router.RouteRequest) :
  exists resp,
    Router.route_payment req = Returned resp
    /\ (Router.rail resp = "ach"
        <-> (Router.amount req <? 5000)%float = true)
    /\ (Router.rail resp = "wire"
        <-> (Router.amount req <? 5000)%float = false).
Proof.
  rewrite RouterProofs.route_cases. eexists. split; [reflexivity|].
  destruct (Router.amount req <? 5000)%float; simpl;
    repeat split; intros; try reflexivity; discriminate.
Qed.

(** X1: the risk gate is monotone in the amount: when [r1] asks for no
    more than [r2], the score of [r1] is at most the score of [r2], and
    [r1] is approved whenever [r2] is. *)
Theorem risk_score_monotone_in_amount (r1 r2 : Risk.RiskRequest) :
  (Risk.amount r1 <=? Risk.amount r2)%float = true ->
  exists resp1 resp2,
    Risk.score_risk r1 = Returned resp1
    /\ Risk.score_risk r2 = Returned resp2
    /\ (Risk.score resp1 <=? Risk.score resp2)%float = true
    /\ (Risk.decision resp2 = "approve" -> Risk.decision resp1 = "approve").
Proof.
  intros Hle.
  destruct (approve_iff_below_1000 r1) as (resp1 & H1 & Ha1 & _ & Hs1).
  destruct (approve_iff_below_1000 r2) as (resp2 & H2 & Ha2 & _ & Hs2).
  exists resp1, resp2. split; [exact H1|]. split; [exact H2|].
  assert (Hmono : (Risk.amount r2 <? 1000)%float = true ->
                  (Risk.amount r1 <? 1000)%float = true)
    by (apply FloatChain.leb_ltb_trans; exact Hle).
  split.
  - rewrite Hs1, Hs2.
    destruct (Risk.amount r2 <? 1000)%float.
    + rewrite Hmono; reflexivity.
    + destruct (Risk.amount r1 <? 1000)%float; reflexivity.
  - intros Happ. apply Ha1, Hmono, Ha2, Happ.
Qed.

(** The theorem at amounts 200 and 2000. *)
Lemma risk_score_monotone_witness :
  (200 <=? 2000)%float = true
  /\ exists resp1 resp2,
       Risk.score_risk Risk.request_small = Returned resp1
       /\ Risk.score_risk Risk.request_large = Returned resp2
       /\ (Risk.score resp1 <=? Risk.score resp2)%float = true.
Proof.
  split; [reflexivity|].
  destruct (risk_score_monotone_in_amount Risk.request_small
              Risk.request_large eq_refl)
    as (resp1 & resp2 & H1 & H2 & Hscore & _).
  exists resp1, resp2. auto.
Defined.

(** X2: the router is monotone in the amount: when [r1] asks for no more
    than [r2] and [r2] goes over "ach", so does [r1]; when [r1] goes over
    "wire", so does [r2]. *)
Theorem rail_monotone_in_amount (r1 r2 : Router.RouteRequest) :
  (Router.amount r1 <=? Router.amount r2)%float = true ->
  exists resp1 resp2,
    Router.route_payment r1 = Returned resp1
    /\ Router.route_payment r2 = Returned resp2
    /\ (Router.rail resp2 = "ach" -> Router.rail resp1 = "ach")
    /\ (Router.rail resp1 = "wire" -> Router.rail resp2 = "wire").
Proof.
  intros Hle.
  destruct (ach_iff_below_5000 r1) as (resp1 & H1 & Ha1 & Hw1).
  destruct (ach_iff_below_5000 r2) as (resp2 & H2 & Ha2 & Hw2).
  exists resp1, resp2. split; [exact H1|]. split; [exact H2|].
  assert (Hmono : (Router.amount r2 <? 5000)%float = true ->
                  (Router.amount r1 <? 5000)%float = true)
    by (apply FloatChain.leb_ltb_trans; exact Hle).
  split.
  - intros Hach. apply Ha1, Hmono, Ha2, Hach.
  - intros Hwire. apply Hw2. apply Hw1 in Hwire.
    destruct (Router.amount r2 <? 5000)%float; [|reflexivity].
    rewrite Hmono in Hwire; [discriminate | reflexivity].
Qed.

(** The theorem at amounts 2000 and 8000. *)
Lemma rail_monotone_witness :
  (2000 <=? 8000)%float = true
  /\ exists resp1 resp2,
       Router.route_payment Router.request_2000 = Returned resp1
       /\ Router.route_payment Router.request_8000 = Returned resp2
       /\ (Router.rail resp2 = "ach" -> Router.rail resp1 = "ach").
Proof.
  split; [reflexivity|].
  destruct (rail_monotone_in_amount Router.request_2000
              Router.request_8000 eq_refl)
    as (resp1 & resp2 & H1 & H2 & Hach & _).
  exists resp1, resp2. auto.
Defined.

(** X3: for one amount, the two services agree in this sense: what the
    risk gate approves the router sends over "ach", and what the router
    sends over "wire" the risk gate puts under review. *)
Theorem approved_amount_goes_over_ach
    (rq : Risk.RiskRequest) (rt : Router.RouteRequest) :
  Risk.amount rq = Router.amount rt ->
  exists d r,
    Risk.score_risk rq = Returned d
    /\ Router.route_payment rt = Returned r
    /\ (Risk.decision d = "approve" -> Router.rail r = "ach")
    /\ (Router.rail r = "wire" -> Risk.decision d = "review").
Proof.
  intros Hsame.
  destruct (approve_iff_below_1000 rq) as (d & Hd & Happ & Hrev & _).
  destruct (ach_iff_below_5000 rt) as (r & Hr & Hach & Hwire).
  exists d, r. split; [exact Hd|]. split; [exact Hr|].
  assert (Hband : (Risk.amount rq <? 1000)%float = true ->
                  (Router.amount rt <? 5000)%float = true).
  { intros Hlow. rewrite <- Hsame.
    apply (FloatChain.ltb_trans _ 1000%float); [exact Hlow | reflexivity]. }
  split.
  - intros Hok. apply Hach, Hband, Happ, Hok.
  - intros Hw. apply Hrev. apply Hwire in Hw.
    destruct (Risk.amount rq <? 1000)%float; [|reflexivity].
    rewrite Hband in Hw; [discriminate | reflexivity].
Qed.

(** The theorem at an amount of 200. *)
Lemma approved_amount_goes_over_ach_witness :
  exists d r,
    Risk.score_risk Risk.request_small = Returned d
    /\ Router.route_payment
         (Router.mkRouteRequest "agent-1" 200%float "USD" "acme" "consent-1"
            None) = Returned r
    /\ (Risk.decision d = "approve" -> Router.rail r = "ach").
Proof.
  destruct (approved_amount_goes_over_ach Risk.request_small
              (Router.mkRouteRequest "agent-1" 200%float "USD" "acme"
                 "consent-1" None) eq_refl)
    as (d & r & Hd & Hr & Hach & _).
  exists d, r. auto.
Defined.

(** X4: neither service checks that the amount is positive: an amount of
    zero or below is approved with score 0.1 and routed over "ach". *)
Theorem nonpositive_amount_is_approved_and_routed
    (rq : Risk.RiskRequest) (rt : Router.RouteRequest) :
  (Risk.amount rq <=? 0)%float = true ->
  (Router.amount rt <=? 0)%float = true ->
  Risk.score_risk rq
  = Returned (Risk.mkRiskResponse 0.1%float "approve" "Low amount")
  /\ Router.route_payment rt
     = Returned (Router.mkRouteResponse "routed" "ach"
         "authorize, place hold, submit, settle, release hold, reconcile").
Proof.
  intros Hrq Hrt. rewrite RiskProofs.decision_cases, RouterProofs.route_cases.
  rewrite (FloatChain.leb_ltb_trans _ _ 1000%float Hrq eq_refl).
  rewrite (FloatChain.leb_ltb_trans _ _ 5000%float Hrt eq_refl).
  split; reflexivity.
Qed.

(** The theorem at an amount of -40. *)
Lemma nonpositive_amount_witness :
  (Risk.amount Runs.risk_refund <=? 0)%float = true
  /\ (Router.amount Runs.route_refund <=? 0)%float = true
  /\ Risk.score_risk Runs.risk_refund
     = Returned (Risk.mkRiskResponse 0.1%float "approve" "Low amount")
  /\ Router.route_payment Runs.route_refund
     = Returned (Router.mkRouteResponse "routed" "ach"
         "authorize, place hold, submit, settle, release hold, reconcile").
Proof.
  split; [reflexivity|]. split; [reflexivity|].
  apply (nonpositive_amount_is_approved_and_routed Runs.risk_refund
           Runs.route_refund); reflexivity.
Defined.

(** X5: an amount that is not a number (it differs from itself) is never
    approved and never sent over "ach": the risk gate answers "review"
    with score 0.8 and the router picks "wire". *)
Theorem nan_amount_is_reviewed_and_wired
    (rq : Risk.RiskRequest) (rt : Router.RouteRequest) :
  (Risk.amount rq =? Risk.amount rq)%float = false ->
  (Router.amount rt =? Router.amount rt)%float = false ->
  Risk.score_risk rq
  = Returned (Risk.mkRiskResponse 0.8%float "review" "High amount")
  /\ Router.route_payment rt
     = Returned (Router.mkRouteResponse "routed" "wire"
         "authorize, place hold, submit, settle, release hold, reconcile").
Proof.
  intros Hrq Hrt. rewrite RiskProofs.decision_cases, RouterProofs.route_cases.
  rewrite (FloatChain.nan_ltb _ 1000%float Hrq).
  rewrite (FloatChain.nan_ltb _ 5000%float Hrt).
  split; reflexivity.
Qed.

(** The theorem at the NaN of the kernel. *)
Lemma nan_amount_witness :
  (nan =? nan)%float = false
  /\ Risk.score_risk Runs.risk_nan
     = Returned (Risk.mkRiskResponse 0.8%float "review" "High amount")
  /\ Router.route_payment Runs.route_nan
     = Returned (Router.mkRouteResponse "routed" "wire"
         "authorize, place hold, submit, settle, release hold, reconcile").
Proof.
  split; [reflexivity|].
  apply (nan_amount_is_reviewed_and_wired Runs.risk_nan Runs.route_nan);
    reflexivity.
Defined.

End AmountProofs.

(** ** Runs of posts to the ledger *)

Module LedgerRunProofs.
Import Ledger Runs.

Lemma post_lookup_other (e : LedgerEntry) (db : gmap string LedgerEntry)
    (k : string) :
  entry_id e <> k -> snd (post_ledger_entry e db) !! k = db !! k.
Proof.
  intros Hne. unfold post_ledger_entry.
  destruct (db !! entry_id e); simpl; [reflexivity|].
  now rewrite lookup_insert_ne.
Qed.

Lemma post_lookup_own (e : LedgerEntry) (db : gmap string LedgerEntry) :
  snd (post_ledger_entry e db) !! entry_id e
  = Some (default e (db !! entry_id e)).
Proof.
  unfold post_ledger_entry.
  destruct (db !! entry_id e) eqn:Hlook; simpl; [exact Hlook|].
  now rewrite lookup_insert_eq.
Qed.

(** The response to a post depends on the ledger only through what it
    holds under the entry's id. *)
Lemma post_response_by_lookup (e : LedgerEntry)
    (db db' : gmap string LedgerEntry) :
  db !! entry_id e = db' !! entry_id e ->
  fst (post_ledger_entry e db) = fst (post_ledger_entry e db').
Proof.
  intros Hsame. unfold post_ledger_entry. rewrite Hsame.
  now destruct (db' !! entry_id e).
Qed.

Lemma post_store_by_lookup (e : LedgerEntry)
    (db db' : gmap string LedgerEntry) :
  db !! entry_id e = db' !! entry_id e ->
  snd (post_ledger_entry e db)
  = match db' !! entry_id e with
    | Some _ => db
    | None => <[entry_id e := e]> db
    end.
Proof.
  intros Hsame. unfold post_ledger_entry. rewrite Hsame.
  now destruct (db' !! entry_id e).
Qed.

(** What a run of posts leaves under a key: what was there before, else
    the first entry of the run sent under that key. *)
Lemma post_all_lookup (entries : list LedgerEntry)
    (db : gmap string LedgerEntry) (k : string) :
  post_all entries db !! k
  = match db !! k with
    | Some e => Some e
    | None => first_posted k entries
    end.
Proof.
  revert db. induction entries as [|e rest IH]; intros db.
  - simpl. now destruct (db !! k).
  - change (post_all (e :: rest) db)
      with (post_all rest (snd (post_ledger_entry e db))).
    rewrite IH. unfold first_posted. simpl.
    destruct (String.eqb_spec (entry_id e) k) as [<-|Hne].
    + rewrite post_lookup_own. now destruct (db !! entry_id e).
    + now rewrite (post_lookup_other e db k Hne).
Qed.

Lemma first_posted_some (k : string) (entries : list LedgerEntry)
    (e : LedgerEntry) :
  first_posted k entries = Some e -> In e entries /\ entry_id e = k.
Proof.
  intros Hfind. apply find_some in Hfind as [Hin Heq].
  split; [exact Hin|]. now apply String.eqb_eq.
Qed.

(** X6: the ledger is append-only: an entry that is in the ledger is
    returned unchanged by [get] after any further posts, whatever they
    send under its [entry_id]. *)
Theorem stored_entry_survives_later_posts
    (k : string) (e : LedgerEntry) (ledger_db : gmap string LedgerEntry)
    (later : list LedgerEntry) :
  ledger_db !! k = Some e ->
  get_ledger_entry k (post_all later ledger_db) = Returned e.
Proof.
  intros Hstored. unfold get_ledger_entry.
  now rewrite post_all_lookup, Hstored.
Qed.

(** The theorem at [entry_first], followed by a changed entry under its
    id and by [entry_second]. *)
Lemma stored_entry_survives_witness :
  let db1 := snd (post_ledger_entry entry_first ledger_db_init) in
  db1 !! "e-1" = Some entry_first
  /\ get_ledger_entry "e-1"
       (post_all [entry_first_changed; entry_second] db1)
     = Returned entry_first.
Proof.
  cbv zeta. split; [reflexivity|].
  apply (stored_entry_survives_later_posts "e-1" entry_first).
  reflexivity.
Defined.

(** X7: after any run of posts to an empty ledger, [get] under an id
    returns the first entry of the run that was sent under that id, and
    fails with 404 "Entry not found" when the run sent none. *)
Theorem get_returns_first_posted (entries : list LedgerEntry) (k : string) :
  get_ledger_entry k (post_all entries ledger_db_init)
  = match first_posted k entries with
    | Some e => Returned e
    | None => Raised (mkHTTPException 404 "Entry not found")
    end.
Proof.
  unfold get_ledger_entry, ledger_db_init.
  rewrite post_all_lookup, lookup_empty.
  now destruct (first_posted k entries).
Qed.

(** X8: in a ledger filled by posts, every entry sits under its own
    [entry_id] and is one of the entries that were posted: [get] never
    returns an entry with another id, nor one that nobody sent. *)
Theorem get_returns_a_posted_entry_of_that_id
    (entries : list LedgerEntry) (k : string) (e : LedgerEntry) :
  get_ledger_entry k (post_all entries ledger_db_init) = Returned e ->
  entry_id e = k /\ In e entries.
Proof.
  unfold get_ledger_entry, ledger_db_init.
  rewrite post_all_lookup, lookup_empty.
  destruct (first_posted k entries) as [e'|] eqn:Hfirst; [|discriminate].
  intros [= <-]. apply first_posted_some in Hfirst. tauto.
Qed.

(** The theorem at the run [entry_first], [entry_first_changed],
    [entry_second], read under "e-1". *)
Lemma get_returns_a_posted_entry_witness :
  get_ledger_entry "e-1"
    (post_all [entry_first; entry_first_changed; entry_second]
       ledger_db_init)
  = Returned entry_first
  /\ entry_id entry_first = "e-1"
  /\ In entry_first [entry_first; entry_first_changed; entry_second].
Proof.
  split; [reflexivity|].
  apply (get_returns_a_posted_entry_of_that_id
           [entry_first; entry_first_changed; entry_second] "e-1"
           entry_first).
  reflexivity.
Defined.

(** X9: every accepted post adds exactly one entry and every refused post
    adds none: after a run of posts the ledger has grown by the number of
    posts that were answered with the entry. *)
Theorem ledger_grows_by_accepted_posts
    (entries : list LedgerEntry) (ledger_db : gmap string LedgerEntry) :
  size (post_all entries ledger_db)
  = size ledger_db + accepted (post_responses entries ledger_db).
Proof.
  revert ledger_db. induction entries as [|e rest IH]; intros db.
  - simpl. unfold accepted. simpl. lia.
  - change (post_all (e :: rest) db)
      with (post_all rest (snd (post_ledger_entry e db))).
    rewrite IH. unfold accepted. simpl.
    unfold post_ledger_entry at 1 3.
    destruct (db !! entry_id e) eqn:Hlook; simpl.
    + reflexivity.
    + rewrite (map_size_insert_None _ _ _ Hlook). lia.
Qed.

(** X10: posts under different ids do not interfere: each gets the
    response it would get alone, and the ledger they leave does not
    depend on their order. *)
Theorem posts_under_different_ids_commute
    (a b : LedgerEntry) (ledger_db : gmap string LedgerEntry) :
  entry_id a <> entry_id b ->
  fst (post_ledger_entry b (snd (post_ledger_entry a ledger_db)))
  = fst (post_ledger_entry b ledger_db)
  /\ fst (post_ledger_entry a (snd (post_ledger_entry b ledger_db)))
     = fst (post_ledger_entry a ledger_db)
  /\ post_all [a; b] ledger_db = post_all [b; a] ledger_db.
Proof.
  intros Hne.
  assert (Hb : snd (post_ledger_entry a ledger_db) !! entry_id b
               = ledger_db !! entry_id b)
    by (apply post_lookup_other; exact Hne).
  assert (Ha : snd (post_ledger_entry b ledger_db) !! entry_id a
               = ledger_db !! entry_id a)
    by (apply post_lookup_other; congruence).
  split; [|split].
  - now apply post_response_by_lookup.
  - now apply post_response_by_lookup.
  - unfold post_all. simpl.
    rewrite (post_store_by_lookup b _ _ Hb), (post_store_by_lookup a _ _ Ha).
    unfold post_ledger_entry.
    destruct (ledger_db !! entry_id a), (ledger_db !! entry_id b);
      simpl; try reflexivity.
    apply insert_insert_ne. congruence.
Qed.

(** The theorem at [entry_first] and [entry_second]. *)
Lemma posts_under_different_ids_witness :
  entry_id entry_first <> entry_id entry_second
  /\ post_all [entry_first; entry_second] ledger_db_init
     = post_all [entry_second; entry_first] ledger_db_init.
Proof.
  split; [discriminate|].
  apply (posts_under_different_ids_commute entry_first entry_second
           ledger_db_init).
  discriminate.
Defined.

End LedgerRunProofs.

(** ** Runs of creates on the consent store *)

Module ConsentRunProofs.
Import Consent Runs.

Lemma create_lookup_other (c : Consent) (db : gmap string Consent)
    (k : string) :
  id c <> k -> snd (create_consent c db) !! k = db !! k.
Proof.
  intros Hne. unfold create_consent.
  destruct (db !! id c); simpl; [reflexivity|].
  now rewrite lookup_insert_ne.
Qed.

Lemma create_lookup_own (c : Consent) (db : gmap string Consent) :
  snd (create_consent c db) !! id c = Some (default c (db !! id c)).
Proof.
  unfold create_consent.
  destruct (db !! id c) eqn:Hlook; simpl; [exact Hlook|].
  now rewrite lookup_insert_eq.
Qed.

Lemma create_all_lookup (consents : list Consent)
    (db : gmap string Consent) (k : string) :
  create_all consents db !! k
  = match db !! k with
    | Some c => Some c
    | None => first_created k consents
    end.
Proof.
  revert db. induction consents as [|c rest IH]; intros db.
  - simpl. now destruct (db !! k).
  - change (create_all (c :: rest) db)
      with (create_all rest (snd (create_consent c db))).
    rewrite IH. unfold first_created. simpl.
    destruct (String.eqb_spec (id c) k) as [<-|Hne].
    + rewrite create_lookup_own. now destruct (db !! id c).
    + now rewrite (create_lookup_other c db k Hne).
Qed.

(** X11: a consent that is in the store is returned unchanged by [get]
    after any further creates, whatever they send under its id; in
    particular no request turns a revoked consent into an unrevoked
    one, or back. *)
Theorem stored_consent_survives_later_creates
    (k : string) (c : Consent) (consents_db : gmap string Consent)
    (later : list Consent) :
  consents_db !! k = Some c ->
  get_consent k (create_all later consents_db) = Returned c
  /\ forall c',
       get_consent k (create_all later consents_db) = Returned c' ->
       revoked c' = revoked c.
Proof.
  intros Hstored. unfold get_consent.
  rewrite create_all_lookup, Hstored. split; [reflexivity|].
  now intros c' [= <-].
Qed.

(** The theorem at [consent_revoked], followed by [consent_reissued]
    under its id. *)
Lemma stored_consent_survives_witness :
  let db1 := snd (create_consent consent_revoked consents_db_init) in
  db1 !! "consent-rev" = Some consent_revoked
  /\ get_consent "consent-rev" (create_all [consent_reissued] db1)
     = Returned consent_revoked.
Proof.
  cbv zeta. split; [reflexivity|].
  apply (stored_consent_survives_later_creates "consent-rev"
           consent_revoked).
  reflexivity.
Defined.

(** X12: after any run of creates on an empty store, [get] under an id
    that one of them carried returns a consent of the run with that id
    (the first one sent), and [get] under any other id fails with 404
    "Consent not found". *)
Theorem get_consent_after_creates (consents : list Consent) (k : string) :
  (In k (map id consents) ->
   exists c,
     get_consent k (create_all consents consents_db_init) = Returned c
     /\ id c = k /\ In c consents
     /\ first_created k consents = Some c)
  /\ (~ In k (map id consents) ->
      get_consent k (create_all consents consents_db_init)
      = Raised (mkHTTPException 404 "Consent not found")).
Proof.
  unfold get_consent, consents_db_init.
  rewrite create_all_lookup, lookup_empty. unfold first_created.
  destruct (find (fun c => String.eqb (id c) k) consents) as [c|] eqn:Hfind.
  - apply find_some in Hfind as [Hin Heq]. apply String.eqb_eq in Heq.
    split.
    + intros _. exists c. auto.
    + intros Hnot. exfalso. apply Hnot. apply in_map_iff. eauto.
  - split; [|reflexivity].
    intros Hin. apply in_map_iff in Hin as (c & Hid & Hin).
    apply (find_none _ _ Hfind) in Hin. simpl in Hin.
    apply String.eqb_neq in Hin. contradiction.
Qed.

(** The theorem at the run [consent_revoked], [consent_reissued],
    [consent_negative_limits], read under "consent-rev" and under an id
    nobody sent. *)
Lemma get_consent_after_creates_witness :
  (exists c,
     get_consent "consent-rev"
       (create_all [consent_revoked; consent_reissued;
                    consent_negative_limits] consents_db_init)
     = Returned c
     /\ id c = "consent-rev"
     /\ first_created "consent-rev"
          [consent_revoked; consent_reissued; consent_negative_limits]
        = Some c)
  /\ get_consent "consent-none"
       (create_all [consent_revoked; consent_reissued;
                    consent_negative_limits] consents_db_init)
     = Raised (mkHTTPException 404 "Consent not found").
Proof.
  split.
  - destruct (proj1 (get_consent_after_creates
                       [consent_revoked; consent_reissued;
                        consent_negative_limits] "consent-rev"))
      as (c & Hget & Hid & _ & Hfirst).
    + simpl. auto.
    + exists c. auto.
  - apply (proj2 (get_consent_after_creates
                    [consent_revoked; consent_reissued;
                     consent_negative_limits] "consent-none")).
    simpl. intros [H|[H|[H|[]]]]; discriminate H.
Defined.

End ConsentRunProofs.

(** ** Runs of starts on the workflow store *)

Module OrchestrationRunProofs.
Import Orchestration Runs.

Lemma length_append (s t : string) :
  String.length (s +:+ t) = String.length s + String.length t.
Proof. induction s as [|c s IH]; simpl; [reflexivity | now rewrite IH]. Qed.

(** Strings with a common tail are equal when their heads are. *)
Lemma append_tail_inj (t s1 s2 : string) : s1 +:+ t = s2 +:+ t -> s1 = s2.
Proof.
  revert s2. induction s1 as [|c s1 IH]; intros [|d s2] Heq; simpl in Heq.
  - reflexivity.
  - apply (f_equal String.length) in Heq. simpl in Heq.
    rewrite !length_append in Heq. simpl in Heq. lia.
  - apply (f_equal String.length) in Heq. simpl in Heq.
    rewrite !length_append in Heq. simpl in Heq. lia.
  - injection Heq as -> Heq. f_equal. now apply IH.
Qed.

Section WithFormat.
Variable format_float : float -> string.

Lemma start_returns_key (req : OrchestrationRequest)
    (db : gmap string OrchestrationStatus) :
  start_orchestration format_float req db
  = (Returned (mkOrchestrationStatus (workflow_key format_float req)
                 "started" (Some "Orchestration initiated")),
     <[workflow_key format_float req :=
         mkOrchestrationStatus (workflow_key format_float req)
           "started" (Some "Orchestration initiated")]> db).
Proof. reflexivity. Qed.

Lemma start_all_lookup (reqs : list OrchestrationRequest)
    (db : gmap string OrchestrationStatus) (k : string) :
  start_all format_float reqs db !! k
  = if existsb (fun r => String.eqb (workflow_key format_float r) k) reqs
    then Some (mkOrchestrationStatus k "started"
                 (Some "Orchestration initiated"))
    else db !! k.
Proof.
  revert db. induction reqs as [|r rest IH]; intros db; [reflexivity|].
  change (start_all format_float (r :: rest) db)
    with (start_all format_float rest
            (snd (start_orchestration format_float r db))).
  rewrite IH, start_returns_key. cbn [snd existsb].
  destruct (existsb _ rest); [now rewrite orb_true_r|].
  rewrite orb_false_r.
  destruct (String.eqb_spec (workflow_key format_float r) k) as [<-|Hne].
  - now rewrite lookup_insert_eq.
  - now rewrite lookup_insert_ne.
Qed.

(** X13: after any run of starts on an empty store, [get] under the
    key of one of the started requests returns the record with that key
    and status "started", and [get] under any other key fails with 404
    "Workflow not found".  No request moves a workflow out of
    "started". *)
Theorem workflow_status_is_started_or_missing
    (reqs : list OrchestrationRequest) (k : string) :
  get_orchestration_status k
    (start_all format_float reqs orchestration_db_init)
  = if existsb (fun r => String.eqb (workflow_key format_float r) k) reqs
    then Returned (mkOrchestrationStatus k "started"
                     (Some "Orchestration initiated"))
    else Raised (mkHTTPException 404 "Workflow not found").
Proof.
  unfold get_orchestration_status. rewrite start_all_lookup.
  now destruct (existsb _ reqs).
Qed.

(** X14: the workflow store does not depend on the order of the starts
    nor on how often a request was started: two runs of the same
    requests in any order, with any repetitions, leave the same store. *)
Theorem start_all_depends_on_request_set
    (reqs reqs' : list OrchestrationRequest)
    (orchestration_db : gmap string OrchestrationStatus) :
  (forall r, In r reqs <-> In r reqs') ->
  start_all format_float reqs orchestration_db
  = start_all format_float reqs' orchestration_db.
Proof.
  intros Hsame. apply map_eq. intros k. rewrite !start_all_lookup.
  assert (Hex : existsb
                  (fun r => String.eqb (workflow_key format_float r) k) reqs
                = existsb
                    (fun r => String.eqb (workflow_key format_float r) k)
                    reqs').
  { apply eq_true_iff_eq. rewrite !existsb_exists.
    split; intros (r & Hin & Hk); exists r; (split; [|exact Hk]);
      now apply Hsame. }
  now rewrite Hex.
Qed.

(** X15: requests of different agents for the same amount never share
    a workflow: their ids differ, and after both are started each is
    found under its own id. *)
Theorem different_agents_get_different_workflows
    (r1 r2 : OrchestrationRequest)
    (orchestration_db : gmap string OrchestrationStatus) :
  agent_id r1 <> agent_id r2 ->
  amount r1 = amount r2 ->
  exists st1 st2,
    fst (start_orchestration format_float r1 orchestration_db) = Returned st1
    /\ fst (start_orchestration format_float r2 orchestration_db)
       = Returned st2
    /\ workflow_id st1 <> workflow_id st2
    /\ get_orchestration_status (workflow_id st1)
         (start_all format_float [r1; r2] orchestration_db) = Returned st1
    /\ get_orchestration_status (workflow_id st2)
         (start_all format_float [r1; r2] orchestration_db) = Returned st2.
Proof.
  intros Hagent Hamount. do 2 eexists.
  rewrite !start_returns_key. cbn [fst workflow_id].
  split; [reflexivity|]. split; [reflexivity|]. cbn [workflow_id].
  assert (Hkeys : workflow_key format_float r1
                  <> workflow_key format_float r2).
  { unfold workflow_key. rewrite Hamount. intros Heq.
    injection Heq as Heq. apply Hagent.
    now apply (append_tail_inj ("_" +:+ format_float (amount r2))). }
  split; [exact Hkeys|].
  unfold get_orchestration_status. rewrite !start_all_lookup.
  cbn [existsb]. rewrite !String.eqb_refl, orb_true_r.
  split; reflexivity.
Qed.

End WithFormat.

(** The theorem of X14 at the runs acme, globex, other agent and other
    agent, acme, other agent. *)
Lemma start_all_request_set_witness :
  start_all (fun _ => "2000.0")
    [Orchestration.request_acme; Orchestration.request_globex;
     request_other_agent] orchestration_db_init
  = start_all (fun _ => "2000.0")
      [request_other_agent; Orchestration.request_globex;
       Orchestration.request_acme; request_other_agent]
      orchestration_db_init.
Proof.
  apply (start_all_depends_on_request_set (fun _ => "2000.0")).
  intros r. simpl. tauto.
Defined.

(** The theorem of X15 at [request_acme] and [request_other_agent]. *)
Lemma different_agents_witness :
  agent_id request_acme <> agent_id request_other_agent
  /\ amount request_acme = amount request_other_agent
  /\ exists st1 st2,
       fst (start_orchestration (fun _ => "2000.0") request_acme
              orchestration_db_init) = Returned st1
       /\ fst (start_orchestration (fun _ => "2000.0") request_other_agent
                 orchestration_db_init) = Returned st2
       /\ workflow_id st1 <> workflow_id st2.
Proof.
  split; [discriminate|]. split; [reflexivity|].
  destruct (different_agents_get_different_workflows (fun _ => "2000.0")
              request_acme request_other_agent orchestration_db_init
              ltac:(discriminate) eq_refl)
    as (st1 & st2 & H1 & H2 & Hne & _).
  exists st1, st2. auto.
Defined.

End OrchestrationRunProofs.

(** ** Runs of onboardings *)

Module ComplianceProofs.
Import Compliance Runs.

Lemma onboard_all_lookup (parties : list Party)
    (db : gmap string OnboardingStatus) (k : string) :
  onboard_all parties db !! k
  = if existsb (fun p => String.eqb (id p) k) parties
    then Some (mkOnboardingStatus k "pending" (Some "KYB/KYC started"))
    else db !! k.
Proof.
  revert db. induction parties as [|p rest IH]; intros db; [reflexivity|].
  change (onboard_all (p :: rest) db)
    with (onboard_all rest (snd (start_onboarding p db))).
  rewrite IH. unfold start_onboarding. cbn [snd existsb].
  destruct (existsb _ rest); [now rewrite orb_true_r|].
  rewrite orb_false_r.
  destruct (String.eqb_spec (id p) k) as [<-|Hne].
  - now rewrite lookup_insert_eq.
  - now rewrite lookup_insert_ne.
Qed.

Lemma onboarded_ids (parties : list Party) (k : string) :
  existsb (fun p => String.eqb (id p) k) parties = true
  <-> In k (map id parties).
Proof.
  rewrite existsb_exists, in_map_iff.
  split; intros (p & H1 & H2); exists p.
  - apply String.eqb_eq in H2. auto.
  - split; [exact H2|]. now apply String.eqb_eq.
Qed.

(** X16: after any run of onboardings on an empty store, [get] under
    the id of an onboarded party returns the record with that id and
    status "pending", and [get] under any other id fails with 404
    "Onboarding not found".  No request moves an onboarding out of
    "pending". *)
Theorem onboarding_is_pending_or_missing
    (parties : list Party) (k : string) :
  get_onboarding_status k (onboard_all parties onboarding_db_init)
  = if existsb (fun p => String.eqb (id p) k) parties
    then Returned (mkOnboardingStatus k "pending" (Some "KYB/KYC started"))
    else Raised (mkHTTPException 404 "Onboarding not found").
Proof.
  unfold get_onboarding_status. rewrite onboard_all_lookup.
  now destruct (existsb _ parties).
Qed.

(** X17: the onboarding store records party ids and nothing else of a
    party: two runs that onboard the same set of ids, in any order, any
    number of times and under any names and types, leave the same
    store. *)
Theorem onboard_all_depends_on_ids
    (parties parties' : list Party)
    (onboarding_db : gmap string OnboardingStatus) :
  (forall k, In k (map id parties) <-> In k (map id parties')) ->
  onboard_all parties onboarding_db = onboard_all parties' onboarding_db.
Proof.
  intros Hsame. apply map_eq. intros k. rewrite !onboard_all_lookup.
  assert (Hex : existsb (fun p => String.eqb (id p) k) parties
                = existsb (fun p => String.eqb (id p) k) parties').
  { apply eq_true_iff_eq. rewrite !onboarded_ids. apply Hsame. }
  now rewrite Hex.
Qed.

(** The theorem at the runs acme, globex and globex, acme renamed,
    globex. *)
Lemma onboard_all_depends_on_ids_witness :
  onboard_all [party_acme; party_globex] onboarding_db_init
  = onboard_all [party_globex; party_acme_renamed; party_globex]
      onboarding_db_init.
Proof.
  apply (onboard_all_depends_on_ids [party_acme; party_globex]
           [party_globex; party_acme_renamed; party_globex]).
  intros k. simpl. tauto.
Defined.

End ComplianceProofs.
